(** * BorrowEasy: the loan-document analysis flow

    A shallow embedding of [src/ai/flows/analyze-loan-document.ts] and the
    properties of its request/response contract.

    The flow is a Genkit flow: an input schema, an output schema, a prompt
    template and one handler that awaits the prompt inside a [try]/[catch].
    Runtime values are modelled as untyped JavaScript values, schemas as
    first-order Zod schema descriptions, and the handler as a finite
    interaction tree whose only external interaction is the model call. *)

From Stdlib Require Import String Ascii List ZArith Bool Arith Lia.
From Stdlib Require Import DecimalString.
Import ListNotations.

Set Warnings "-register-all".

Local Open Scope list_scope.
Local Open Scope string_scope.

(* ===================================================================== *)
(** ** JavaScript values *)
(* ===================================================================== *)

Module Js.

(** Runtime values as the flow can observe them: plain data, without
    functions or accessors.  A character of a [string] stands for one
    unit of [String.prototype.length].  Numbers carry an integer payload:
    no schema of this file has a numeric field, so a number only ever
    matters through its truthiness and, as a message, through its
    digits. *)
Inductive value : Type :=
| JUndefined
| JNull
| JBool (b : bool)
| JNum (n : Z)
| JStr (s : string)
| JArr (items : list value)
| JObj (fields : list (string * value)).

(** Property read [o.k]: an own property, or [undefined]. *)
Fixpoint get (k : string) (fields : list (string * value)) : value :=
  match fields with
  | [] => JUndefined
  | (k', v) :: rest => if String.eqb k k' then v else get k rest
  end.

(** ToBoolean, as used by [!output]. *)
Definition truthy (v : value) : bool :=
  match v with
  | JUndefined | JNull => false
  | JBool b => b
  | JNum n => negb (Z.eqb n 0)
  | JStr s => negb (String.eqb s EmptyString)
  | JArr _ | JObj _ => true
  end.

(** Does an object have an own property [k]? *)
Definition has_own (k : string) (fields : list (string * value)) : bool :=
  existsb (fun kv => String.eqb k (fst kv)) fields.

(** [error.message] on a caught value, which may be any value at all.
    Reading a property of [undefined] or [null] throws a TypeError
    ([None]); an object gives its property, [undefined] when it has none;
    strings, numbers, booleans and arrays have no [message]. *)
Definition message_of (error : value) : option value :=
  match error with
  | JUndefined | JNull => None
  | JObj fields => Some (get "message" fields)
  | JBool _ | JNum _ | JStr _ | JArr _ => Some JUndefined
  end.

(** [new Error(msg)], by what can be read of it: its message. *)
Definition new_Error (msg : string) : value :=
  JObj [ ("message", JStr msg) ].

(** [m || fallback]: the fallback replaces every falsy [m], an absent
    message and an empty one alike. *)
Definition or_default (m : value) (fallback : string) : value :=
  if truthy m then m else JStr fallback.

(** An integer in decimal digits, as numbers within the safe integer
    range print. *)
Definition digits (n : Z) : string :=
  NilZero.string_of_int (Z.to_int n).

(** ToString, as a template literal applies it to [${...}]; [None] when
    the conversion throws a TypeError.  Values are plain data: an array
    prints as its elements joined by commas, with [undefined] and [null]
    elements left empty; an object prints through [Object.prototype], as
    [[object Object]], unless an own [toString] property, which as data
    cannot be called, is in the way, and then no conversion is left. *)
Fixpoint to_string (v : value) : option string :=
  match v with
  | JUndefined => Some "undefined"
  | JNull => Some "null"
  | JBool true => Some "true"
  | JBool false => Some "false"
  | JNum n => Some (digits n)
  | JStr s => Some s
  | JArr items =>
      (fix join (xs : list value) : option string :=
         match xs with
         | [] => Some EmptyString
         | x :: rest =>
             let piece :=
               match x with
               | JUndefined | JNull => Some EmptyString
               | _ => to_string x
               end in
             match rest with
             | [] => piece
             | _ :: _ =>
                 match piece, join rest with
                 | Some p, Some r => Some (p ++ "," ++ r)
                 | _, _ => None
                 end
             end
         end) items
  | JObj fields =>
      if has_own "toString" fields then None else Some "[object Object]"
  end.

(** [haystack.includes(needle)]. *)
Fixpoint includes (needle haystack : string) : bool :=
  if String.prefix needle haystack then true
  else match haystack with
       | EmptyString => false
       | String _ rest => includes needle rest
       end.

End Js.

(* ===================================================================== *)
(** ** Zod schemas *)
(* ===================================================================== *)

Module Zod.
Import Js.

(** The schema combinators the source uses.  [.describe(...)] only
    attaches documentation to a schema and is not represented. *)
Inductive schema : Type :=
| ZString (minimum : option nat)
| ZBoolean
| ZOptional (inner : schema)
| ZArray (element : schema)
| ZObject (shape : list (string * schema)).

Definition string : schema := ZString None.
Definition boolean : schema := ZBoolean.
Definition optional (s : schema) : schema := ZOptional s.
Definition array (s : schema) : schema := ZArray s.
Definition object (shape : list (String.string * schema)) : schema :=
  ZObject shape.

(** [.min(n)] on a string schema. *)
Definition min (n : nat) (s : schema) : schema :=
  match s with
  | ZString _ => ZString (Some n)
  | other => other
  end.

(** Does a value pass the schema?  A string is too small when its
    length is below the minimum; an optional field admits [undefined];
    an object is checked key by key of the shape (a missing key reads as
    [undefined]). *)
Fixpoint accepts (s : schema) (v : value) {struct s} : bool :=
  match s with
  | ZString minimum =>
      match v with
      | JStr x =>
          match minimum with
          | Some n => negb (Nat.ltb (String.length x) n)
          | None => true
          end
      | _ => false
      end
  | ZBoolean =>
      match v with
      | JBool _ => true
      | _ => false
      end
  | ZOptional inner =>
      match v with
      | JUndefined => true
      | _ => accepts inner v
      end
  | ZArray element =>
      match v with
      | JArr items => forallb (accepts element) items
      | _ => false
      end
  | ZObject shape =>
      match v with
      | JObj fields =>
          (fix accepts_shape (sh : list (String.string * schema)) : bool :=
             match sh with
             | [] => true
             | (k, field) :: rest =>
                 accepts field (get k fields) && accepts_shape rest
             end) shape
      | _ => false
      end
  end.

(** The key-by-key check of an object shape, named. *)
Definition accepts_shape (shape : list (String.string * schema))
           (fields : list (String.string * value)) : bool :=
  forallb (fun kf => accepts (snd kf) (get (fst kf) fields)) shape.

End Zod.

(* ===================================================================== *)
(** ** The schemas of the flow *)
(* ===================================================================== *)

(** [AnalyzeLoanDocumentInputSchema] *)
Definition AnalyzeLoanDocumentInputSchema : Zod.schema :=
  Zod.object
    [ ("pdfTextContent", Zod.min 100 Zod.string) ].

(** [AnalyzeLoanDocumentInput = z.infer<typeof AnalyzeLoanDocumentInputSchema>] *)
Record AnalyzeLoanDocumentInput : Type :=
  { pdfTextContent : string }.

(** The object a typed input is at run time. *)
Definition input_value (input : AnalyzeLoanDocumentInput) : Js.value :=
  Js.JObj [ ("pdfTextContent", Js.JStr (pdfTextContent input)) ].

(** The element schema of [detailed_analysis]. *)
Definition DetailedFindingSchema : Zod.schema :=
  Zod.object
    [ ("flag_key", Zod.string);
      ("finding", Zod.string);
      ("is_red_flag", Zod.optional Zod.boolean) ].

(** [AnalyzeLoanDocumentOutputSchema] *)
Definition AnalyzeLoanDocumentOutputSchema : Zod.schema :=
  Zod.object
    [ ("use_of_urgent_language", Zod.boolean);
      ("emotional_appeals", Zod.boolean);
      ("hidden_conditions_detected", Zod.boolean);
      ("complex_language_used", Zod.boolean);
      ("aggressive_marketing_detected", Zod.boolean);
      ("loan_app_authenticity_verified", Zod.optional Zod.boolean);
      ("phishing_indicators_present", Zod.boolean);
      ("loan_disbursement_method", Zod.optional Zod.string);
      ("repayment_method", Zod.optional Zod.string);
      ("suspicious_permissions_requested", Zod.optional Zod.boolean);
      ("disclosure_of_total_cost", Zod.boolean);
      ("regulatory_registration_status", Zod.optional Zod.boolean);
      ("consumer_rights_info_provided", Zod.boolean);
      ("grace_period_provided", Zod.boolean);
      ("early_repayment_penalty_present", Zod.boolean);
      ("rollover_clauses_detected", Zod.boolean);
      ("dynamic_interest_rate_clause", Zod.boolean);
      ("user_felt_pressured_to_accept", Zod.optional Zod.boolean);
      ("user_understood_terms_before_accepting", Zod.optional Zod.boolean);
      ("overall_summary", Zod.string);
      ("detailed_analysis", Zod.array DetailedFindingSchema) ].

(* ===================================================================== *)
(** ** Prompt templates *)
(* ===================================================================== *)

Module Handlebars.

(** The one template construct the source uses: a triple-stash
    expression, which inserts the named value as it is, without
    escaping. *)
Definition triple_stash (name : string) : string :=
  "{{{" ++ name ++ "}}}".

(** One left-to-right pass over the template: each occurrence of the
    expression is replaced by the value, and the inserted value is not
    scanned again.  [skip] counts the characters of an expression that
    are still to be dropped. *)
Fixpoint substitute (expr value : string) (skip : nat) (template : string)
  : string :=
  match template with
  | EmptyString => EmptyString
  | String c rest =>
      match skip with
      | S k => substitute expr value k rest
      | O =>
          if String.prefix expr template
          then value ++ substitute expr value (String.length expr - 1) rest
          else String c (substitute expr value 0 rest)
      end
  end.

Definition render (template name value : string) : string :=
  substitute (triple_stash name) value 0 template.

End Handlebars.

(** The [prompt:] template of [analyzeLoanDocumentPrompt]. *)
Definition prompt_template : string :=
"You are an expert loan contract analyzer. Your task is to meticulously review the provided loan document text content and identify potential red flags, manipulative tactics, and unclear terms based on the specific criteria listed in the output schema.

Analyze the following loan document text:
--- START DOCUMENT TEXT ---
{{{pdfTextContent}}}
--- END DOCUMENT TEXT ---

Carefully evaluate the text against each field in the output schema. For each boolean field, determine if the condition is met based *only* on the provided text. If the text doesn't provide enough information for a boolean field (especially optional ones like 'regulatory_registration_status' or 'loan_app_authenticity_verified'), determine the most likely value or default to false/null if inference is not possible. For text fields like 'loan_disbursement_method', extract the relevant information if present.

For the 'detailed_analysis' array:
- For each check (corresponding to the keys in the output schema), provide a brief 'finding' explaining the reasoning or quoting relevant text snippets.
- Indicate if the finding is generally considered a 'is_red_flag' (true if it's a potential negative for the borrower, false or omit otherwise).

For the 'overall_summary', synthesize your findings into a concise paragraph highlighting the most critical red flags (e.g., hidden fees, complex language, pressure tactics) or positive aspects (e.g., clear terms, consumer rights mentioned). Focus on actionable insights for the user.

Provide your analysis strictly in the requested JSON format matching the output schema.".

(** The markers that delimit the document text in the template. *)
Definition start_marker : string := "--- START DOCUMENT TEXT ---".
Definition end_marker : string := "--- END DOCUMENT TEXT ---".
Definition newline : string := String (ascii_of_nat 10) EmptyString.

(* ===================================================================== *)
(** ** Programs that talk to the model *)
(* ===================================================================== *)

Module Flow.
Import Js.

(** What is sent to the external model: the rendered prompt text and
    the schema its structured output is asked to follow. *)
Record GenerateRequest : Type :=
  { request_text : string;
    request_output_schema : Zod.schema }.

(** [const { output } = await prompt(input)]: the response carries an
    [output] that may be null. *)
Record GenerateResponse : Type := { output : value }.

(** A promise of the model settles one way or the other; it can be
    rejected with any value. *)
Inductive settled : Type :=
| Resolved (response : GenerateResponse)
| Rejected (error : value).

Inductive console_arg : Type :=
| ArgStr (s : string)
| ArgNum (n : nat)
| ArgError (e : value).

Inductive console_line : Type :=
| console_log (args : list console_arg)
| console_error (args : list console_arg).

(** A program: it returns, throws, writes a console line and goes on,
    or awaits the model and goes on with what the promise settled to. *)
Inductive prog (E A : Type) : Type :=
| Return (a : A)
| Throw (e : E)
| Console (line : console_line) (k : prog E A)
| Generate (request : GenerateRequest) (k : settled -> prog E A).

Arguments Return {E A} a.
Arguments Throw {E A} e.
Arguments Console {E A} line k.
Arguments Generate {E A} request k.

Fixpoint bind {E A B} (p : prog E A) (f : A -> prog E B) : prog E B :=
  match p with
  | Return a => f a
  | Throw e => Throw e
  | Console line k => Console line (bind k f)
  | Generate request k => Generate request (fun s => bind (k s) f)
  end.

(** [try { p } catch (error) { handler error }] *)
Fixpoint try_catch {E E' A} (p : prog E A) (handler : E -> prog E' A)
  : prog E' A :=
  match p with
  | Return a => Return a
  | Throw e => handler e
  | Console line k => Console line (try_catch k handler)
  | Generate request k =>
      Generate request (fun s => try_catch (k s) handler)
  end.

(** [await] of a model call: a rejection is thrown at the await. *)
Definition await_generate {E} (inject : value -> E)
           (request : GenerateRequest) : prog E GenerateResponse :=
  Generate request
    (fun s =>
       match s with
       | Resolved response => Return response
       | Rejected error => Throw (inject error)
       end).

Definition log {E} (args : list console_arg) : prog E unit :=
  Console (console_log args) (Return tt).

Definition log_error {E} (args : list console_arg) : prog E unit :=
  Console (console_error args) (Return tt).

(** *** Running a program against a model *)

Inductive event : Type :=
| Printed (line : console_line)
| ModelCall (request : GenerateRequest).

Inductive result (E A : Type) : Type :=
| Returned (a : A)
| Threw (e : E).

Arguments Returned {E A} a.
Arguments Threw {E A} e.

Record run_state (W E A : Type) : Type :=
  { outcome : result E A;
    world : W;
    trace : list event }.

Arguments outcome {W E A} r.
Arguments world {W E A} r.
Arguments trace {W E A} r.

Section Run.
(** The external model: it has a state of its own, answers a request
    and moves on.  Nothing is assumed about its answers. *)
Variable W : Type.
Variable model : GenerateRequest -> W -> settled * W.

Fixpoint run_from {E A} (p : prog E A) (w : W) (seen : list event)
  : run_state W E A :=
  match p with
  | Return a =>
      {| outcome := Returned a; world := w; trace := rev seen |}
  | Throw e =>
      {| outcome := Threw e; world := w; trace := rev seen |}
  | Console line k => run_from k w (Printed line :: seen)
  | Generate request k =>
      let (answer, w') := model request w in
      run_from (k answer) w' (ModelCall request :: seen)
  end.

Definition run {E A} (p : prog E A) (w : W) : run_state W E A :=
  run_from p w [].
End Run.

Arguments run_from {W} model {E A} p w seen.
Arguments run {W} model {E A} p w.

(** How often the model was called in a trace. *)
Definition is_model_call (ev : event) : bool :=
  match ev with
  | ModelCall _ => true
  | Printed _ => false
  end.

Definition model_calls (t : list event) : nat :=
  List.length (filter is_model_call t).

End Flow.

Declare Scope flow_scope.
Delimit Scope flow_scope with flow.
Notation "x <- p ;; k" := (Flow.bind p (fun x => k))
  (at level 61, p at next level, right associativity) : flow_scope.
Notation "p ;; k" := (Flow.bind p (fun _ => k))
  (at level 61, right associativity) : flow_scope.

(* ===================================================================== *)
(** ** The Genkit runtime *)
(* ===================================================================== *)

Module Genkit.
Import Js Flow.
Local Open Scope flow_scope.

(** The two places where a flow checks a value against a schema. *)
Inductive validation_site : Type :=
| OfInput
| OfOutput.

(** What a call of the flow can raise: a schema validation error of the
    runtime, an error object thrown by the handler, or a TypeError that
    the engine raises while the handler runs (its message is the engine's
    own wording and is not represented). *)
Inductive exception : Type :=
| ValidationError (site : validation_site)
| JsError (error : value)
| TypeError.

(** Modelled from the spec: [ai.definePrompt] comes from the Genkit
    instance exported by [@/ai/ai-instance], which is not among the
    sources.  The prompt it defines renders the document text into the
    fixed instruction template and submits the rendered prompt, with the
    output schema descriptor, to the external model endpoint; a failure
    of that call is raised to whoever awaits the prompt. *)
Definition definePrompt (name : string)
           (input_schema output_schema : Zod.schema) (template : string)
  : AnalyzeLoanDocumentInput -> prog value GenerateResponse :=
  fun input =>
    await_generate (fun error => error)
      {| request_text :=
           Handlebars.render template "pdfTextContent" (pdfTextContent input);
         request_output_schema := output_schema |}.

(** Modelled from the spec: [ai.defineFlow] comes from the same Genkit
    instance.  The flow it defines validates the input against the
    request schema and rejects it before the handler, hence before any
    external call, when the schema is violated; it then runs the handler
    and hands back the handler's result, validated against the output
    schema and otherwise unchanged. *)
Definition defineFlow (name : string)
           (inputSchema outputSchema : Zod.schema)
           (handler : AnalyzeLoanDocumentInput -> prog exception value)
  : AnalyzeLoanDocumentInput -> prog exception value :=
  fun input =>
    if Zod.accepts inputSchema (input_value input)
    then
      result <- handler input ;;
      if Zod.accepts outputSchema result
      then Return result
      else Throw (ValidationError OfOutput)
    else Throw (ValidationError OfInput).

End Genkit.

(* ===================================================================== *)
(** ** The flow *)
(* ===================================================================== *)

Import Js Flow Genkit.
Local Open Scope flow_scope.

(** [const prompt = ai.definePrompt({...})] *)
Definition prompt
  : AnalyzeLoanDocumentInput -> prog value GenerateResponse :=
  definePrompt "analyzeLoanDocumentPrompt"
    AnalyzeLoanDocumentInputSchema
    AnalyzeLoanDocumentOutputSchema
    prompt_template.

(** The body of the [try] block of the handler. *)
Definition analyze_attempt (input : AnalyzeLoanDocumentInput)
  : prog value value :=
  response <- prompt input ;;
  let output := output response in
  if negb (truthy output)
  then
    log_error
      [ArgStr "[analyzeLoanDocumentFlow] AI did not return a valid output."] ;;
    Throw (new_Error "AI analysis failed to generate a response.")
  else
    log [ArgStr "[analyzeLoanDocumentFlow] Analysis successful."] ;;
    Return output.

(** What [throw new Error(`Failed to analyze loan document:
    ${error.message || 'Unknown AI Error'}`)] raises for a caught value:
    the new error, or the TypeError of reading [message] off [undefined]
    or [null], or of a message that cannot be converted to a string. *)
Definition rethrown (error : value) : exception :=
  match message_of error with
  | None => TypeError
  | Some m =>
      match to_string (or_default m "Unknown AI Error") with
      | None => TypeError
      | Some reason =>
          JsError (new_Error ("Failed to analyze loan document: " ++ reason))
      end
  end.

(** The [catch (error: any)] block of the handler. *)
Definition analyze_rescue (error : value) : prog exception value :=
  log_error
    [ArgStr "[analyzeLoanDocumentFlow] Error during AI analysis:";
     ArgError error] ;;
  Throw (rethrown error).

(** The [async (input) => {...}] handler given to [ai.defineFlow]. *)
Definition analyzeLoanDocumentFlow_handler (input : AnalyzeLoanDocumentInput)
  : prog exception value :=
  log [ArgStr "[analyzeLoanDocumentFlow] Analyzing text content..."] ;;
  try_catch (analyze_attempt input) analyze_rescue.

(** [const analyzeLoanDocumentFlow = ai.defineFlow(...)] *)
Definition analyzeLoanDocumentFlow
  : AnalyzeLoanDocumentInput -> prog exception value :=
  defineFlow "analyzeLoanDocumentFlow"
    AnalyzeLoanDocumentInputSchema
    AnalyzeLoanDocumentOutputSchema
    analyzeLoanDocumentFlow_handler.

(** [export async function analyzeLoanDocument(input)] *)
Definition analyzeLoanDocument (input : AnalyzeLoanDocumentInput)
  : prog exception value :=
  log [ArgStr "[analyzeLoanDocument] Calling flow with text length:";
       ArgNum (String.length (pdfTextContent input))] ;;
  analyzeLoanDocumentFlow input.

(** The request the prompt sends for an input. *)
Definition request_of (input : AnalyzeLoanDocumentInput) : GenerateRequest :=
  {| request_text :=
       Handlebars.render prompt_template "pdfTextContent"
         (pdfTextContent input);
     request_output_schema := AnalyzeLoanDocumentOutputSchema |}.

(* ===================================================================== *)
(** ** Sample inputs and models *)
(* ===================================================================== *)

Module Examples.

Fixpoint replicate (n : nat) (c : ascii) : string :=
  match n with
  | O => EmptyString
  | S k => String c (replicate k c)
  end.

(** A document that is too short to be analysed. *)
Definition short_input : AnalyzeLoanDocumentInput :=
  {| pdfTextContent := "Loan of 500 due in 14 days." |}.

(** A document of exactly one hundred characters. *)
Definition boundary_input : AnalyzeLoanDocumentInput :=
  {| pdfTextContent := replicate 100 "x"%char |}.

(** A document of ninety-nine characters. *)
Definition below_boundary_input : AnalyzeLoanDocumentInput :=
  {| pdfTextContent := replicate 99 "x"%char |}.

Definition sample_input : AnalyzeLoanDocumentInput :=
  {| pdfTextContent :=
       "Act now, limited time offer! Borrow 500 today and repay 650 "
       ++ "within 14 days by auto-debit. Late payments roll over "
       ++ "automatically at the lender's discretion." |}.

Definition urgent_finding : value :=
  JObj [ ("flag_key", JStr "use_of_urgent_language");
         ("finding", JStr "Detected phrase: limited time offer");
         ("is_red_flag", JBool true) ].

Definition rollover_finding : value :=
  JObj [ ("flag_key", JStr "rollover_clauses_detected");
         ("finding", JStr "Late payments roll over automatically") ].

(** A well-formed analysis of [sample_input]. *)
Definition sample_output : value :=
  JObj [ ("use_of_urgent_language", JBool true);
         ("emotional_appeals", JBool false);
         ("hidden_conditions_detected", JBool false);
         ("complex_language_used", JBool false);
         ("aggressive_marketing_detected", JBool true);
         ("phishing_indicators_present", JBool false);
         ("repayment_method", JStr "Auto-debit");
         ("disclosure_of_total_cost", JBool true);
         ("consumer_rights_info_provided", JBool false);
         ("grace_period_provided", JBool false);
         ("early_repayment_penalty_present", JBool false);
         ("rollover_clauses_detected", JBool true);
         ("dynamic_interest_rate_clause", JBool false);
         ("overall_summary", JStr "Urgent wording and automatic rollovers.");
         ("detailed_analysis", JArr [urgent_finding; rollover_finding]) ].

(** An analysis whose [detailed_analysis] has an entry without a
    [finding]. *)
Definition malformed_output : value :=
  JObj [ ("use_of_urgent_language", JBool true);
         ("overall_summary", JStr "Incomplete.");
         ("detailed_analysis",
          JArr [ JObj [ ("flag_key", JStr "emotional_appeals") ] ]) ].

(** Models over a world that counts the requests served. *)
Definition answering_model (v : value)
  : GenerateRequest -> nat -> settled * nat :=
  fun _ served => (Resolved {| output := v |}, S served).

Definition failing_model (error : value)
  : GenerateRequest -> nat -> settled * nat :=
  fun _ served => (Rejected error, S served).

(** A model without any state that always fails the same way. *)
Definition stateless_failing_model (error : value)
  : GenerateRequest -> unit -> settled * unit :=
  fun _ u => (Rejected error, u).

End Examples.

(* ===================================================================== *)
(** ** Vocabulary of the statements *)
(* ===================================================================== *)

(** The message of every error the [catch] block raises starts with this. *)
Definition failure_prefix : string := "Failed to analyze loan document: ".

(** The console lines of the source, named. *)
Definition line_calling (input : AnalyzeLoanDocumentInput) : event :=
  Printed
    (console_log
       [ArgStr "[analyzeLoanDocument] Calling flow with text length:";
        ArgNum (String.length (pdfTextContent input))]).

Definition line_analyzing : event :=
  Printed
    (console_log
       [ArgStr "[analyzeLoanDocumentFlow] Analyzing text content..."]).

Definition line_no_output : event :=
  Printed
    (console_error
       [ArgStr "[analyzeLoanDocumentFlow] AI did not return a valid output."]).

Definition line_successful : event :=
  Printed
    (console_log [ArgStr "[analyzeLoanDocumentFlow] Analysis successful."]).

Definition line_failed (error : value) : event :=
  Printed
    (console_error
       [ArgStr "[analyzeLoanDocumentFlow] Error during AI analysis:";
        ArgError error]).

(** The shape of [detailed_analysis] in words: a sequence of records with
    a string [flag_key], a string [finding] and, if present, a boolean
    [is_red_flag]. *)
Definition is_string (v : value) : Prop := exists s, v = JStr s.
Definition is_boolean (v : value) : Prop := exists b, v = JBool b.
Definition is_absent_or_boolean (v : value) : Prop :=
  v = JUndefined \/ is_boolean v.

Definition is_finding (item : value) : Prop :=
  exists fields,
    item = JObj fields
    /\ is_string (get "flag_key" fields)
    /\ is_string (get "finding" fields)
    /\ is_absent_or_boolean (get "is_red_flag" fields).

Definition has_detailed_analysis (v : value) : Prop :=
  exists fields items,
    v = JObj fields
    /\ get "detailed_analysis" fields = JArr items
    /\ Forall is_finding items.

(** The part of a text before the first occurrence of a marker, and the
    part after it. *)
Definition text_before (marker s : string) : string :=
  match index 0 marker s with
  | Some i => substring 0 i s
  | None => s
  end.

Definition text_after (marker s : string) : string :=
  match index 0 marker s with
  | Some i =>
      substring (i + String.length marker)
                (String.length s - (i + String.length marker)) s
  | None => EmptyString
  end.

(** The instructions of the template around the delimited document. *)
Definition prompt_lead : string := text_before start_marker prompt_template.
Definition prompt_rest : string := text_after end_marker prompt_template.

(** The shape of an object schema. *)
Definition shape_of (s : Zod.schema) : list (string * Zod.schema) :=
  match s with
  | Zod.ZObject shape => shape
  | _ => []
  end.

(** The keys of an object schema whose field schema satisfies a test. *)
Definition keys_where (test : Zod.schema -> bool) (s : Zod.schema)
  : list string :=
  map fst (filter (fun kf => test (snd kf)) (shape_of s)).

Definition is_z_boolean (s : Zod.schema) : bool :=
  match s with
  | Zod.ZBoolean => true
  | _ => false
  end.

Definition is_z_string (s : Zod.schema) : bool :=
  match s with
  | Zod.ZString None => true
  | _ => false
  end.

Definition is_z_optional (test : Zod.schema -> bool) (s : Zod.schema) : bool :=
  match s with
  | Zod.ZOptional inner => test inner
  | _ => false
  end.

(** The fields of the output schema by kind: [z.boolean()],
    [z.boolean().optional()], [z.string()] and [z.string().optional()]. *)
Definition required_indicators : list string :=
  keys_where is_z_boolean AnalyzeLoanDocumentOutputSchema.
Definition optional_indicators : list string :=
  keys_where (is_z_optional is_z_boolean) AnalyzeLoanDocumentOutputSchema.
Definition required_texts : list string :=
  keys_where is_z_string AnalyzeLoanDocumentOutputSchema.
Definition optional_texts : list string :=
  keys_where (is_z_optional is_z_string) AnalyzeLoanDocumentOutputSchema.

Definition is_absent_or_string (v : value) : Prop :=
  v = JUndefined \/ is_string v.

(** The arguments of a console line. *)
Definition console_args (line : console_line) : list console_arg :=
  match line with
  | console_log args => args
  | console_error args => args
  end.

(** The string literals the source hands to [console.log] and
    [console.error]. *)
Definition console_literals : list string :=
  [ "[analyzeLoanDocument] Calling flow with text length:";
    "[analyzeLoanDocumentFlow] Analyzing text content...";
    "[analyzeLoanDocumentFlow] AI did not return a valid output.";
    "[analyzeLoanDocumentFlow] Analysis successful.";
    "[analyzeLoanDocumentFlow] Error during AI analysis:" ].

(* ===================================================================== *)
(** ** Schema facts *)
(* ===================================================================== *)

Section SchemaFacts.

(** The object case of [Zod.accepts] is the key-by-key check. *)
Lemma accepts_object shape fields :
  Zod.accepts (Zod.object shape) (JObj fields)
  = Zod.accepts_shape shape fields.
Proof.
  unfold Zod.object, Zod.accepts_shape. cbn.
  induction shape as [|[k field] rest IH]; cbn; [reflexivity|].
  now rewrite IH.
Qed.

Lemma accepts_object_inv shape v :
  Zod.accepts (Zod.object shape) v = true ->
  exists fields,
    v = JObj fields /\
    forall k field, In (k, field) shape ->
                    Zod.accepts field (get k fields) = true.
Proof.
  destruct v as [| | b | n | s | items | fields]; try discriminate.
  rewrite accepts_object. unfold Zod.accepts_shape.
  rewrite forallb_forall. intros Hall.
  exists fields. split; [reflexivity|].
  intros k field Hin. exact (Hall (k, field) Hin).
Qed.

Lemma accepts_string_inv v :
  Zod.accepts Zod.string v = true -> exists s, v = JStr s.
Proof. destruct v; try discriminate. eauto. Qed.

Lemma accepts_boolean_inv v :
  Zod.accepts Zod.boolean v = true -> exists b, v = JBool b.
Proof. destruct v; try discriminate. eauto. Qed.

Lemma accepts_optional_inv inner v :
  Zod.accepts (Zod.optional inner) v = true ->
  v = JUndefined \/ Zod.accepts inner v = true.
Proof. destruct v; cbn; auto. Qed.

Lemma accepts_array_inv element v :
  Zod.accepts (Zod.array element) v = true ->
  exists items,
    v = JArr items /\ Forall (fun i => Zod.accepts element i = true) items.
Proof.
  destruct v as [| | b | n | s | items | fields]; try discriminate.
  cbn. rewrite forallb_forall. intros Hall.
  exists items. split; [reflexivity|]. now apply Forall_forall.
Qed.

(** Whatever passes an object schema is truthy. *)
Lemma accepts_object_truthy shape v :
  Zod.accepts (Zod.object shape) v = true -> truthy v = true.
Proof. destruct v; try discriminate. reflexivity. Qed.

(** The request schema amounts to the length test of [.min(100)]. *)
Lemma accepts_input input :
  Zod.accepts AnalyzeLoanDocumentInputSchema (input_value input)
  = negb (Nat.ltb (String.length (pdfTextContent input)) 100).
Proof. cbn. now rewrite andb_true_r. Qed.

Lemma accepts_input_iff input :
  Zod.accepts AnalyzeLoanDocumentInputSchema (input_value input) = true
  <-> 100 <= String.length (pdfTextContent input).
Proof.
  rewrite accepts_input, negb_true_iff. apply Nat.ltb_ge.
Qed.

End SchemaFacts.

(* ===================================================================== *)
(** ** The four ways a call can go *)
(* ===================================================================== *)

Lemma prompt_sends input :
  prompt input = await_generate (fun error => error) (request_of input).
Proof. reflexivity. Qed.

Ltac enter_flow :=
  unfold analyzeLoanDocument, analyzeLoanDocumentFlow, defineFlow;
  rewrite accepts_input.

Ltac enter_handler input :=
  unfold analyzeLoanDocumentFlow_handler, analyze_attempt;
  rewrite prompt_sends;
  generalize dependent (request_of input); intros request; intros.

Section Runs.
Variable W : Type.
Variable model : GenerateRequest -> W -> settled * W.

(** Too short: the runtime rejects the input; the handler never runs. *)
Lemma run_too_short input w :
  String.length (pdfTextContent input) < 100 ->
  run model (analyzeLoanDocument input) w
  = {| outcome := Threw (ValidationError OfInput);
       world := w;
       trace := [line_calling input] |}.
Proof.
  intros Hshort. enter_flow.
  apply Nat.ltb_lt in Hshort. rewrite Hshort. reflexivity.
Qed.

(** The model call is rejected: the [catch] block logs the caught value
    and raises what the rethrow makes of it. *)
Lemma run_rejected input w error w' :
  100 <= String.length (pdfTextContent input) ->
  model (request_of input) w = (Rejected error, w') ->
  run model (analyzeLoanDocument input) w
  = {| outcome := Threw (rethrown error);
       world := w';
       trace := [line_calling input; line_analyzing;
                 ModelCall (request_of input); line_failed error] |}.
Proof.
  intros Hlong Hanswer. enter_flow.
  apply Nat.ltb_ge in Hlong. rewrite Hlong.
  enter_handler input.
  unfold run. cbn. rewrite Hanswer. reflexivity.
Qed.

(** The model answers with a falsy output: the [throw] of the [try]
    block lands in the [catch] block of the same handler. *)
Lemma run_no_output input w response w' :
  100 <= String.length (pdfTextContent input) ->
  model (request_of input) w = (Resolved response, w') ->
  truthy (output response) = false ->
  run model (analyzeLoanDocument input) w
  = {| outcome :=
         Threw
           (JsError
              (new_Error
                 (failure_prefix
                    ++ "AI analysis failed to generate a response.")));
       world := w';
       trace := [line_calling input; line_analyzing;
                 ModelCall (request_of input); line_no_output;
                 line_failed
                   (new_Error "AI analysis failed to generate a response.")]
    |}.
Proof.
  intros Hlong Hanswer Hfalsy. enter_flow.
  apply Nat.ltb_ge in Hlong. rewrite Hlong.
  enter_handler input.
  unfold run. cbn. rewrite Hanswer. cbn. rewrite Hfalsy. reflexivity.
Qed.

(** The model answers with a truthy output: the handler returns it and
    the runtime checks it against the output schema. *)
Lemma run_output input w response w' :
  100 <= String.length (pdfTextContent input) ->
  model (request_of input) w = (Resolved response, w') ->
  truthy (output response) = true ->
  run model (analyzeLoanDocument input) w
  = {| outcome :=
         if Zod.accepts AnalyzeLoanDocumentOutputSchema (output response)
         then Returned (output response)
         else Threw (ValidationError OfOutput);
       world := w';
       trace := [line_calling input; line_analyzing;
                 ModelCall (request_of input); line_successful] |}.
Proof.
  intros Hlong Hanswer Htruthy. enter_flow.
  apply Nat.ltb_ge in Hlong. rewrite Hlong.
  enter_handler input.
  generalize AnalyzeLoanDocumentOutputSchema; intros expected.
  unfold run. cbn. rewrite Hanswer. cbn. rewrite Htruthy. cbn.
  destruct (Zod.accepts expected (output response)); reflexivity.
Qed.

End Runs.

(* ===================================================================== *)
(** ** Properties of a call *)
(* ===================================================================== *)

(** Splits a goal about a run of [analyzeLoanDocument] into the four ways
    the call can go, rewriting the run in each. *)
Ltac flow_cases W model input w :=
  let Hshort := fresh "Hshort" in
  let Hlong := fresh "Hlong" in
  let Hanswer := fresh "Hanswer" in
  let Htruthy := fresh "Htruthy" in
  let response := fresh "response" in
  let error := fresh "error" in
  let w' := fresh "w'" in
  destruct (Nat.ltb_spec (String.length (pdfTextContent input)) 100)
    as [Hshort | Hlong];
  [ rewrite (run_too_short W model input w Hshort)
  | destruct (model (request_of input) w) as [[response | error] w']
      eqn:Hanswer;
    [ destruct (truthy (output response)) eqn:Htruthy;
      [ rewrite (run_output W model input w response w'
                   Hlong Hanswer Htruthy)
      | rewrite (run_no_output W model input w response w'
                   Hlong Hanswer Htruthy) ]
    | rewrite (run_rejected W model input w error w' Hlong Hanswer) ] ].

(** The rethrow raises an error object or a TypeError, never a validation
    error. *)
Lemma rethrown_is_no_validation_error error site :
  rethrown error <> ValidationError site.
Proof.
  unfold rethrown.
  destruct (message_of error) as [m|]; [|discriminate].
  destruct (to_string (or_default m "Unknown AI Error")); discriminate.
Qed.

Lemma prefix_refl s : String.prefix s s = true.
Proof.
  induction s as [|c s IH]; cbn; [reflexivity|].
  destruct (ascii_dec c c) as [_ | Hneq]; [exact IH | now elim Hneq].
Qed.

Lemma includes_append needle lead :
  includes needle (lead ++ needle) = true.
Proof.
  induction lead as [|c lead IH]; cbn [append].
  - destruct needle; cbn; [reflexivity|].
    destruct (ascii_dec a a) as [_ | Hneq]; [|now elim Hneq].
    now rewrite prefix_refl.
  - cbn [includes].
    destruct (String.prefix needle (String c (lead ++ needle)));
      [reflexivity | exact IH].
Qed.

Section Call.
Variable W : Type.
Variable model : GenerateRequest -> W -> settled * W.

(** What the rethrow makes of a caught value whose message is a
    non-empty string: the message behind the fixed prefix. *)
Lemma rethrown_message error m :
  message_of error = Some (JStr m) ->
  m <> EmptyString ->
  rethrown error = JsError (new_Error (failure_prefix ++ m)).
Proof.
  intros Hmessage Hm. unfold rethrown, or_default. rewrite Hmessage.
  cbn [truthy].
  destruct (String.eqb_spec m EmptyString) as [Heq | _];
    [now elim Hm | reflexivity].
Qed.

(** A rejection with a non-empty message is raised again with the
    message behind the fixed prefix, so the raised message includes the
    upstream one. *)
Lemma rejection_wrapped input w error m w' :
  100 <= String.length (pdfTextContent input) ->
  message_of error = Some (JStr m) ->
  m <> EmptyString ->
  model (request_of input) w = (Rejected error, w') ->
  outcome (run model (analyzeLoanDocument input) w)
  = Threw (JsError (new_Error (failure_prefix ++ m)))
  /\ includes m (failure_prefix ++ m) = true.
Proof.
  intros Hlong Hmessage Hm Hanswer.
  rewrite (run_rejected W model input w _ w' Hlong Hanswer).
  split; [|apply includes_append].
  cbn [outcome]. now rewrite (rethrown_message error m Hmessage Hm).
Qed.

(** When the input is valid the model receives the prompt rendered for
    this very input. *)
Lemma valid_input_reaches_model input w :
  100 <= String.length (pdfTextContent input) ->
  In (ModelCall (request_of input))
     (trace (run model (analyzeLoanDocument input) w)).
Proof.
  intros Hlong.
  flow_cases W model input w; [lia | | | ]; cbn; tauto.
Qed.

(** C1: an input whose document text is shorter than 100 characters is
    refused with a validation error, and the external model is not
    called: no model call appears in the trace of the run and the model
    is left in the state it was in. *)
Theorem short_text_is_rejected_before_the_model input w :
  String.length (pdfTextContent input) < 100 ->
  outcome (run model (analyzeLoanDocument input) w)
  = Threw (ValidationError OfInput)
  /\ model_calls (trace (run model (analyzeLoanDocument input) w)) = 0
  /\ world (run model (analyzeLoanDocument input) w) = w.
Proof.
  intros Hshort. rewrite (run_too_short W model input w Hshort).
  repeat split.
Qed.

(** C2: for a text of at least 100 characters, when the model call
    fails with an error whose message is "boom", the call raises the one
    kind of error the [catch] block builds, and its message,
    "Failed to analyze loan document: boom", contains "boom". *)
Theorem upstream_boom_is_wrapped input w error w' :
  100 <= String.length (pdfTextContent input) ->
  message_of error = Some (JStr "boom") ->
  model (request_of input) w = (Rejected error, w') ->
  exists raised,
    outcome (run model (analyzeLoanDocument input) w)
    = Threw (JsError (new_Error raised))
    /\ raised = "Failed to analyze loan document: boom"
    /\ includes "boom" raised = true.
Proof.
  intros Hlong Hboom Hanswer.
  rewrite (run_rejected W model input w error w' Hlong Hanswer).
  unfold rethrown. rewrite Hboom. eexists. repeat split.
Qed.

(** C3: for a valid input, when the model call succeeds with a null or
    absent output, the call raises an error with the fixed message
    "Failed to analyze loan document: AI analysis failed to generate a
    response." *)
Theorem missing_output_is_an_error input w response w' :
  100 <= String.length (pdfTextContent input) ->
  model (request_of input) w = (Resolved response, w') ->
  output response = JNull \/ output response = JUndefined ->
  outcome (run model (analyzeLoanDocument input) w)
  = Threw
      (JsError
         (new_Error
            "Failed to analyze loan document: AI analysis failed to generate a response.")).
Proof.
  intros Hlong Hanswer Hmissing.
  assert (Hfalsy : truthy (output response) = false)
    by (destruct Hmissing as [-> | ->]; reflexivity).
  now rewrite (run_no_output W model input w response w'
                 Hlong Hanswer Hfalsy).
Qed.

(** C4: for a valid input, when the model call succeeds with an object
    that conforms to the output schema, the call returns that very
    object. *)
Theorem conforming_output_is_returned_unchanged input w response w' :
  100 <= String.length (pdfTextContent input) ->
  model (request_of input) w = (Resolved response, w') ->
  Zod.accepts AnalyzeLoanDocumentOutputSchema (output response) = true ->
  outcome (run model (analyzeLoanDocument input) w)
  = Returned (output response).
Proof.
  intros Hlong Hanswer Hconforms.
  assert (Htruthy : truthy (output response) = true)
    by (eapply accepts_object_truthy; exact Hconforms).
  rewrite (run_output W model input w response w' Hlong Hanswer Htruthy).
  cbn [outcome]. now rewrite Hconforms.
Qed.

(** C7: whatever the input and whatever the model does, one call of
    [analyzeLoanDocument] calls the model at most once: not at all when
    the input is refused, once otherwise, also when the call then
    fails. *)
Theorem model_is_called_at_most_once input w :
  model_calls (trace (run model (analyzeLoanDocument input) w)) <= 1
  /\ model_calls (trace (run model (analyzeLoanDocument input) w))
     = (if Nat.ltb (String.length (pdfTextContent input)) 100
        then 0 else 1).
Proof.
  destruct (Nat.ltb (String.length (pdfTextContent input)) 100) eqn:Hlen;
    flow_cases W model input w;
    try (apply Nat.ltb_lt in Hlen; lia);
    try (apply Nat.ltb_ge in Hlen; lia);
    cbn; split; lia.
Qed.


(** C10: the bound is inclusive.  A text of exactly 100 characters
    passes the request schema; the call raises no validation error for
    the input and goes on to call the model, once, with the prompt
    rendered for that text. *)
Theorem text_of_length_100_is_accepted input w :
  String.length (pdfTextContent input) = 100 ->
  Zod.accepts AnalyzeLoanDocumentInputSchema (input_value input) = true
  /\ outcome (run model (analyzeLoanDocument input) w)
     <> Threw (ValidationError OfInput)
  /\ model_calls (trace (run model (analyzeLoanDocument input) w)) = 1
  /\ In (ModelCall (request_of input))
        (trace (run model (analyzeLoanDocument input) w)).
Proof.
  intros Hlen.
  assert (Hlong : 100 <= String.length (pdfTextContent input)) by lia.
  split; [now apply accepts_input_iff|].
  split; [|split; [|now apply valid_input_reaches_model]].
  - flow_cases W model input w; cbn [outcome]; try lia;
      try discriminate.
    + destruct (Zod.accepts _ _); discriminate.
    + intros [= Hraised].
      exact (rethrown_is_no_validation_error _ _ Hraised).
  - flow_cases W model input w; try lia; reflexivity.
Qed.

End Call.

(* ===================================================================== *)
(** ** Independence of calls *)
(* ===================================================================== *)

(** C8: the outcome of a call is a function of the input and of what the
    model answers to the one request of that input.  Two calls with the
    same input, against models of possibly different kinds and in
    possibly different states, end the same way (same returned value or
    same raised error, and the same console lines and model request) as
    soon as the two models give the same answer; and the only state a call
    leaves changed is the model's own, by its one call. *)
Theorem calls_are_deterministic_and_stateless
        (W1 W2 : Type)
        (model1 : GenerateRequest -> W1 -> settled * W1)
        (model2 : GenerateRequest -> W2 -> settled * W2)
        (w1 : W1) (w2 : W2) (input : AnalyzeLoanDocumentInput) :
  fst (model1 (request_of input) w1) = fst (model2 (request_of input) w2) ->
  outcome (run model1 (analyzeLoanDocument input) w1)
  = outcome (run model2 (analyzeLoanDocument input) w2)
  /\ trace (run model1 (analyzeLoanDocument input) w1)
     = trace (run model2 (analyzeLoanDocument input) w2)
  /\ world (run model1 (analyzeLoanDocument input) w1)
     = (if Nat.ltb (String.length (pdfTextContent input)) 100
        then w1
        else snd (model1 (request_of input) w1)).
Proof.
  intros Hsame.
  destruct (Nat.ltb_spec (String.length (pdfTextContent input)) 100)
    as [Hshort | Hlong].
  - rewrite (run_too_short W1 model1 input w1 Hshort),
            (run_too_short W2 model2 input w2 Hshort).
    repeat split.
  - destruct (model1 (request_of input) w1) as [answer1 w1'] eqn:Hanswer1.
    destruct (model2 (request_of input) w2) as [answer2 w2'] eqn:Hanswer2.
    cbn [fst snd] in *. subst answer2.
    destruct answer1 as [response | error].
    + destruct (truthy (output response)) eqn:Htruthy.
      * rewrite (run_output W1 model1 input w1 response w1'
                   Hlong Hanswer1 Htruthy),
                (run_output W2 model2 input w2 response w2'
                   Hlong Hanswer2 Htruthy).
        repeat split.
      * rewrite (run_no_output W1 model1 input w1 response w1'
                   Hlong Hanswer1 Htruthy),
                (run_no_output W2 model2 input w2 response w2'
                   Hlong Hanswer2 Htruthy).
        repeat split.
    + rewrite (run_rejected W1 model1 input w1 error w1' Hlong Hanswer1),
              (run_rejected W2 model2 input w2 error w2' Hlong Hanswer2).
      repeat split.
Qed.

(* ===================================================================== *)
(** ** The shape of a returned analysis *)
(* ===================================================================== *)

Lemma accepted_finding item :
  Zod.accepts DetailedFindingSchema item = true -> is_finding item.
Proof.
  intros Hitem.
  destruct (accepts_object_inv _ _ Hitem) as (fields & -> & Hfields).
  exists fields. split; [reflexivity|].
  split; [|split].
  - apply accepts_string_inv, Hfields. cbn. tauto.
  - apply accepts_string_inv, Hfields. cbn. tauto.
  - destruct (accepts_optional_inv Zod.boolean (get "is_red_flag" fields))
      as [Habsent | Hbool].
    + apply Hfields. cbn. tauto.
    + now left.
    + right. now apply accepts_boolean_inv.
Qed.

Lemma accepted_output_has_detailed_analysis v :
  Zod.accepts AnalyzeLoanDocumentOutputSchema v = true ->
  has_detailed_analysis v.
Proof.
  intros Hv.
  destruct (accepts_object_inv _ _ Hv) as (fields & -> & Hfields).
  destruct (accepts_array_inv DetailedFindingSchema
              (get "detailed_analysis" fields))
    as (items & Hitems & Hall).
  { apply Hfields. do 20 right. left. reflexivity. }
  exists fields, items. split; [reflexivity|]. split; [exact Hitems|].
  eapply Forall_impl; [|exact Hall].
  intros item. apply accepted_finding.
Qed.

(** C6: whenever a call returns, the [detailed_analysis] of the returned
    value is a sequence of records, each with a string [flag_key], a
    string [finding] and an [is_red_flag] that is either absent or a
    boolean. *)
Theorem returned_analysis_has_declared_shape
        (W : Type) (model : GenerateRequest -> W -> settled * W)
        (w : W) (input : AnalyzeLoanDocumentInput) (v : value) :
  outcome (run model (analyzeLoanDocument input) w) = Returned v ->
  has_detailed_analysis v.
Proof.
  flow_cases W model input w; cbn [outcome]; try discriminate.
  destruct (Zod.accepts AnalyzeLoanDocumentOutputSchema (output response))
    eqn:Hconforms; [|discriminate].
  intros [= <-]. now apply accepted_output_has_detailed_analysis.
Qed.

(* ===================================================================== *)
(** ** The rendered prompt *)
(* ===================================================================== *)

Lemma rendered_prompt text :
  Handlebars.render prompt_template "pdfTextContent" text
  = prompt_lead ++ start_marker ++ newline
      ++ text ++ newline ++ end_marker ++ prompt_rest.
Proof. vm_compute. reflexivity. Qed.

(** C5: the prompt rendered for a text of at least 100 characters is the
    instructions of the template with that text, character for character,
    on the lines between the start marker and the end marker; the marker
    before the text is the first start marker of the prompt and the marker
    after it is the last end marker. *)
Theorem rendered_prompt_holds_the_text_between_the_markers
        (input : AnalyzeLoanDocumentInput) :
  100 <= String.length (pdfTextContent input) ->
  request_text (request_of input)
  = prompt_lead ++ start_marker ++ newline
      ++ pdfTextContent input ++ newline ++ end_marker ++ prompt_rest
  /\ includes start_marker prompt_lead = false
  /\ includes end_marker prompt_rest = false.
Proof.
  intros _. split; [apply rendered_prompt|].
  split; vm_compute; reflexivity.
Qed.

(* ===================================================================== *)
(** ** Worked examples *)
(* ===================================================================== *)

Import Examples.

Example sample_output_conforms :
  Zod.accepts AnalyzeLoanDocumentOutputSchema sample_output = true.
Proof. reflexivity. Qed.

Example malformed_output_is_refused :
  outcome (run (answering_model malformed_output)
               (analyzeLoanDocument sample_input) 0)
  = Threw (ValidationError OfOutput).
Proof. reflexivity. Qed.

Example empty_string_output_counts_as_missing :
  outcome (run (answering_model (JStr EmptyString))
               (analyzeLoanDocument sample_input) 0)
  = Threw
      (JsError
         (new_Error
            "Failed to analyze loan document: AI analysis failed to generate a response.")).
Proof. reflexivity. Qed.

Example ninety_nine_characters_are_refused :
  run (answering_model sample_output)
      (analyzeLoanDocument below_boundary_input) 7
  = {| outcome := Threw (ValidationError OfInput);
       world := 7;
       trace := [line_calling below_boundary_input] |}.
Proof. reflexivity. Qed.

Example messages_that_are_not_strings :
  rethrown (JObj [("message", JNum 42)])
  = JsError (new_Error "Failed to analyze loan document: 42")
  /\ rethrown (JObj [("message", JArr [JNum 1; JNull; JStr "x"])])
     = JsError (new_Error "Failed to analyze loan document: 1,,x")
  /\ rethrown (JObj [("message", JArr [])])
     = JsError (new_Error "Failed to analyze loan document: ")
  /\ rethrown (JObj [("message", JObj [("toString", JNum 1)])])
     = TypeError.
Proof. repeat split. Qed.

Example thrown_values_without_a_message :
  rethrown (JStr "boom")
  = JsError (new_Error "Failed to analyze loan document: Unknown AI Error")
  /\ rethrown (JObj [])
     = JsError (new_Error "Failed to analyze loan document: Unknown AI Error")
  /\ rethrown JNull = TypeError
  /\ rethrown JUndefined = TypeError.
Proof. repeat split. Qed.

Example substitution_is_not_repeated :
  Handlebars.render "a {{{x}}} b {{{x}}}" "x" "<{{{x}}}>"
  = "a <{{{x}}}> b <{{{x}}}>".
Proof. reflexivity. Qed.

Lemma short_text_is_rejected_before_the_model_witness :
  outcome (run (answering_model sample_output)
               (analyzeLoanDocument short_input) 0)
  = Threw (ValidationError OfInput)
  /\ model_calls (trace (run (answering_model sample_output)
                             (analyzeLoanDocument short_input) 0)) = 0
  /\ world (run (answering_model sample_output)
                (analyzeLoanDocument short_input) 0) = 0.
Proof.
  apply (short_text_is_rejected_before_the_model
           nat (answering_model sample_output) short_input 0).
  cbn. lia.
Defined.

Lemma upstream_boom_is_wrapped_witness :
  exists raised,
    outcome (run (failing_model (new_Error "boom"))
                 (analyzeLoanDocument sample_input) 0)
    = Threw (JsError (new_Error raised))
    /\ raised = "Failed to analyze loan document: boom"
    /\ includes "boom" raised = true.
Proof.
  apply (upstream_boom_is_wrapped
           nat (failing_model (new_Error "boom")) sample_input 0
           (new_Error "boom") 1).
  - cbn. lia.
  - reflexivity.
  - reflexivity.
Defined.

Lemma missing_output_is_an_error_witness :
  outcome (run (answering_model JNull) (analyzeLoanDocument sample_input) 0)
  = Threw
      (JsError
         (new_Error
            "Failed to analyze loan document: AI analysis failed to generate a response.")).
Proof.
  apply (missing_output_is_an_error
           nat (answering_model JNull) sample_input 0
           {| output := JNull |} 1).
  - cbn. lia.
  - reflexivity.
  - left. reflexivity.
Defined.

Lemma conforming_output_is_returned_unchanged_witness :
  outcome (run (answering_model sample_output)
               (analyzeLoanDocument sample_input) 0)
  = Returned sample_output.
Proof.
  apply (conforming_output_is_returned_unchanged
           nat (answering_model sample_output) sample_input 0
           {| output := sample_output |} 1).
  - cbn. lia.
  - reflexivity.
  - reflexivity.
Defined.

Lemma rendered_prompt_holds_the_text_between_the_markers_witness :
  request_text (request_of sample_input)
  = prompt_lead ++ start_marker ++ newline
      ++ pdfTextContent sample_input ++ newline ++ end_marker ++ prompt_rest
  /\ includes start_marker prompt_lead = false
  /\ includes end_marker prompt_rest = false.
Proof.
  apply (rendered_prompt_holds_the_text_between_the_markers sample_input).
  cbn. lia.
Defined.

Lemma returned_analysis_has_declared_shape_witness :
  has_detailed_analysis sample_output.
Proof.
  apply (returned_analysis_has_declared_shape
           nat (answering_model sample_output) 0 sample_input sample_output).
  reflexivity.
Defined.

Lemma calls_are_deterministic_and_stateless_witness :
  outcome (run (failing_model (new_Error "boom"))
               (analyzeLoanDocument sample_input) 5)
  = outcome (run (stateless_failing_model (new_Error "boom"))
                 (analyzeLoanDocument sample_input) tt)
  /\ trace (run (failing_model (new_Error "boom"))
                (analyzeLoanDocument sample_input) 5)
     = trace (run (stateless_failing_model (new_Error "boom"))
                  (analyzeLoanDocument sample_input) tt)
  /\ world (run (failing_model (new_Error "boom"))
                (analyzeLoanDocument sample_input) 5)
     = (if Nat.ltb (String.length (pdfTextContent sample_input)) 100
        then 5
        else snd (failing_model (new_Error "boom") (request_of sample_input) 5)).
Proof.
  apply (calls_are_deterministic_and_stateless
           nat unit
           (failing_model (new_Error "boom"))
           (stateless_failing_model (new_Error "boom"))
           5 tt sample_input).
  reflexivity.
Defined.


Lemma text_of_length_100_is_accepted_witness :
  Zod.accepts AnalyzeLoanDocumentInputSchema (input_value boundary_input)
  = true
  /\ outcome (run (answering_model sample_output)
                  (analyzeLoanDocument boundary_input) 0)
     <> Threw (ValidationError OfInput)
  /\ model_calls (trace (run (answering_model sample_output)
                             (analyzeLoanDocument boundary_input) 0)) = 1
  /\ In (ModelCall (request_of boundary_input))
        (trace (run (answering_model sample_output)
                    (analyzeLoanDocument boundary_input) 0)).
Proof.
  apply (text_of_length_100_is_accepted
           nat (answering_model sample_output) boundary_input 0).
  reflexivity.
Defined.

(* ===================================================================== *)
(** ** The schemas on arbitrary values *)
(* ===================================================================== *)

Example required_indicators_listed :
  required_indicators
  = [ "use_of_urgent_language"; "emotional_appeals";
      "hidden_conditions_detected"; "complex_language_used";
      "aggressive_marketing_detected"; "phishing_indicators_present";
      "disclosure_of_total_cost"; "consumer_rights_info_provided";
      "grace_period_provided"; "early_repayment_penalty_present";
      "rollover_clauses_detected"; "dynamic_interest_rate_clause" ].
Proof. reflexivity. Qed.

Example optional_indicators_listed :
  optional_indicators
  = [ "loan_app_authenticity_verified"; "suspicious_permissions_requested";
      "regulatory_registration_status"; "user_felt_pressured_to_accept";
      "user_understood_terms_before_accepting" ].
Proof. reflexivity. Qed.

Example text_fields_listed :
  required_texts = [ "overall_summary" ]
  /\ optional_texts = [ "loan_disbursement_method"; "repayment_method" ].
Proof. split; reflexivity. Qed.

Lemma keys_where_in test s k :
  In k (keys_where test s) ->
  exists field, In (k, field) (shape_of s) /\ test field = true.
Proof.
  unfold keys_where. rewrite in_map_iff.
  intros ([k' field] & Hk & Hin). cbn in Hk. subst k'.
  apply filter_In in Hin. destruct Hin as [Hin Htest].
  exists field. split; assumption.
Qed.

Lemma accepted_field s fields k test :
  Zod.accepts s (JObj fields) = true ->
  In k (keys_where test s) ->
  exists field, test field = true /\ Zod.accepts field (get k fields) = true.
Proof.
  intros Hv Hk.
  apply keys_where_in in Hk. destruct Hk as (field & Hin & Htest).
  exists field. split; [exact Htest|].
  destruct s as [m | | inner | element | shape];
    try (cbn in Hin; contradiction).
  destruct (accepts_object_inv shape (JObj fields) Hv)
    as (fields' & [= <-] & Hfields).
  exact (Hfields k field Hin).
Qed.

Lemma accepted_z_boolean field v :
  is_z_boolean field = true -> Zod.accepts field v = true -> is_boolean v.
Proof.
  destruct field; intros Htest; try discriminate Htest.
  apply accepts_boolean_inv.
Qed.

Lemma accepted_z_string field v :
  is_z_string field = true -> Zod.accepts field v = true -> is_string v.
Proof.
  destruct field as [[m|] | | | |]; intros Htest; try discriminate Htest.
  apply accepts_string_inv.
Qed.

Lemma accepted_z_optional test field v :
  is_z_optional test field = true ->
  Zod.accepts field v = true ->
  v = JUndefined
  \/ exists inner, test inner = true /\ Zod.accepts inner v = true.
Proof.
  destruct field as [| | inner | |]; intros Htest; try discriminate Htest.
  intros Hv. destruct (accepts_optional_inv inner v Hv) as [Habsent | Hinner].
  - now left.
  - right. exists inner. split; assumption.
Qed.

Lemma null_fails_z_optional test field :
  (forall inner, test inner = true -> Zod.accepts inner JNull = false) ->
  is_z_optional test field = true ->
  Zod.accepts field JNull = false.
Proof.
  intros Hinner.
  destruct field as [| | inner | |]; intros Htest; try discriminate Htest.
  cbn in Htest. cbn. now apply Hinner.
Qed.

Lemma accepted_output_has_scalar_fields v :
  Zod.accepts AnalyzeLoanDocumentOutputSchema v = true ->
  exists fields,
    v = JObj fields
    /\ (forall k, In k required_indicators -> is_boolean (get k fields))
    /\ (forall k, In k required_texts -> is_string (get k fields))
    /\ (forall k, In k optional_indicators ->
                  is_absent_or_boolean (get k fields))
    /\ (forall k, In k optional_texts ->
                  is_absent_or_string (get k fields)).
Proof.
  unfold required_indicators, required_texts, optional_indicators,
         optional_texts, AnalyzeLoanDocumentOutputSchema.
  match goal with
  | |- Zod.accepts (Zod.object ?sh) v = true -> _ =>
      generalize sh; intros shape Hv
  end.
  destruct (accepts_object_inv shape v Hv) as (fields & Hobject & _).
  subst v.
  exists fields. split; [reflexivity|].
  repeat split; intros k Hk;
    destruct (accepted_field (Zod.object shape) fields k _ Hv Hk)
      as (field & Htest & Hfield).
  - exact (accepted_z_boolean field _ Htest Hfield).
  - exact (accepted_z_string field _ Htest Hfield).
  - destruct (accepted_z_optional _ field _ Htest Hfield)
      as [Habsent | (inner & Hinner & Hinnerv)]; [now left | right].
    exact (accepted_z_boolean inner _ Hinner Hinnerv).
  - destruct (accepted_z_optional _ field _ Htest Hfield)
      as [Habsent | (inner & Hinner & Hinnerv)]; [now left | right].
    exact (accepted_z_string inner _ Hinner Hinnerv).
Qed.

(** X1: the request schema on an arbitrary value.  A value passes exactly
    when it is an object whose [pdfTextContent] is a string of at least
    100 characters: a missing key, a null, a number or a short string are
    all refused. *)
Theorem input_schema_accepts_exactly_long_texts (v : value) :
  Zod.accepts AnalyzeLoanDocumentInputSchema v = true
  <-> exists fields s,
        v = JObj fields
        /\ get "pdfTextContent" fields = JStr s
        /\ 100 <= String.length s.
Proof.
  split.
  - intros Hv.
    destruct (accepts_object_inv _ _ Hv) as (fields & -> & Hfields).
    specialize (Hfields "pdfTextContent" (Zod.min 100 Zod.string)
                        (or_introl eq_refl)).
    destruct (get "pdfTextContent" fields) as [| | b | n | s | items | fs]
      eqn:Hget; try discriminate.
    exists fields, s. split; [reflexivity|]. split; [exact Hget|].
    cbn [Zod.accepts Zod.min Zod.string] in Hfields.
    apply negb_true_iff, Nat.ltb_ge in Hfields. exact Hfields.
  - intros (fields & s & -> & Hget & Hlen).
    unfold AnalyzeLoanDocumentInputSchema. rewrite accepts_object.
    cbn [Zod.accepts_shape forallb fst snd]. rewrite Hget, andb_true_r.
    cbn [Zod.accepts Zod.min Zod.string].
    apply negb_true_iff, Nat.ltb_ge. exact Hlen.
Qed.

(** X2: the output schema refuses [null] in an optional field.  The
    prompt tells the model to default to false/null when it cannot infer
    an optional field; of the two, only leaving the key out (or false)
    passes [z.boolean().optional()] and [z.string().optional()]. *)
Theorem null_in_an_optional_field_is_refused
        (fields : list (string * value)) (k : string) :
  In k (optional_indicators ++ optional_texts) ->
  get k fields = JNull ->
  Zod.accepts AnalyzeLoanDocumentOutputSchema (JObj fields) = false.
Proof.
  unfold optional_indicators, optional_texts.
  generalize AnalyzeLoanDocumentOutputSchema. intros expected Hk Hnull.
  destruct (Zod.accepts expected (JObj fields)) eqn:Hv; [|reflexivity].
  exfalso.
  apply in_app_or in Hk.
  destruct Hk as [Hk | Hk];
    destruct (accepted_field expected fields k _ Hv Hk)
      as (field & Htest & Hfield);
    clear Hv Hk; rewrite Hnull in Hfield.
  - rewrite (null_fails_z_optional is_z_boolean field) in Hfield;
      [discriminate Hfield | | exact Htest].
    intros inner Hinner. now destruct inner.
  - rewrite (null_fails_z_optional is_z_string field) in Hfield;
      [discriminate Hfield | | exact Htest].
    intros inner Hinner. now destruct inner.
Qed.

(* ===================================================================== *)
(** ** What a call returns and raises *)
(* ===================================================================== *)

Section Outcomes.
Variable W : Type.
Variable model : GenerateRequest -> W -> settled * W.

(** X3: every scalar field of a returned analysis has its declared type:
    the twelve required indicators are booleans, the summary is a string,
    and each optional indicator or optional text is either absent or of
    its type. *)
Theorem returned_analysis_has_its_scalar_fields
        (w : W) (input : AnalyzeLoanDocumentInput) (v : value) :
  outcome (run model (analyzeLoanDocument input) w) = Returned v ->
  exists fields,
    v = JObj fields
    /\ (forall k, In k required_indicators -> is_boolean (get k fields))
    /\ (forall k, In k required_texts -> is_string (get k fields))
    /\ (forall k, In k optional_indicators ->
                  is_absent_or_boolean (get k fields))
    /\ (forall k, In k optional_texts ->
                  is_absent_or_string (get k fields)).
Proof.
  flow_cases W model input w; cbn [outcome]; try discriminate.
  destruct (Zod.accepts AnalyzeLoanDocumentOutputSchema (output response))
    eqn:Hconforms; [|discriminate].
  intros [= <-]. now apply accepted_output_has_scalar_fields.
Qed.

(** X4: a call returns a value exactly when the text has at least 100
    characters, the model call resolved with that very value as its
    output, and the value conforms to the output schema.  Nothing is
    returned that the model did not produce. *)
Theorem a_value_is_returned_exactly_when_the_model_produced_it
        (w : W) (input : AnalyzeLoanDocumentInput) (v : value) :
  outcome (run model (analyzeLoanDocument input) w) = Returned v
  <-> 100 <= String.length (pdfTextContent input)
      /\ fst (model (request_of input) w) = Resolved {| output := v |}
      /\ Zod.accepts AnalyzeLoanDocumentOutputSchema v = true.
Proof.
  split.
  - flow_cases W model input w; cbn [outcome fst]; try discriminate.
    destruct (Zod.accepts AnalyzeLoanDocumentOutputSchema (output response))
      eqn:Hconforms; [|discriminate].
    intros [= <-]. destruct response as [out]. cbn in *. auto.
  - intros (Hlong & Hanswer & Hconforms).
    destruct (model (request_of input) w) as [answer w'] eqn:Hmodel.
    cbn [fst] in Hanswer. subst answer.
    assert (Htruthy : truthy v = true)
      by (eapply accepts_object_truthy; exact Hconforms).
    rewrite (run_output W model input w {| output := v |} w'
               Hlong Hmodel Htruthy).
    cbn [outcome output]. now rewrite Hconforms.
Qed.

(** X5: [!output] is a test of falsiness, not of null.  For a valid
    input and a resolved model call, the call raises the no-response error
    exactly when the output is falsy: null and undefined, but also false,
    0 and the empty string. *)
Theorem no_response_error_exactly_for_falsy_outputs
        (w : W) (input : AnalyzeLoanDocumentInput)
        (response : GenerateResponse) (w' : W) :
  100 <= String.length (pdfTextContent input) ->
  model (request_of input) w = (Resolved response, w') ->
  outcome (run model (analyzeLoanDocument input) w)
  = Threw
      (JsError
         (new_Error
            "Failed to analyze loan document: AI analysis failed to generate a response."))
  <-> truthy (output response) = false.
Proof.
  intros Hlong Hanswer.
  destruct (truthy (output response)) eqn:Htruthy.
  - rewrite (run_output W model input w response w' Hlong Hanswer Htruthy).
    cbn [outcome].
    destruct (Zod.accepts _ _); split; discriminate.
  - rewrite (run_no_output W model input w response w' Hlong Hanswer Htruthy).
    split; reflexivity.
Qed.

(** X6: an upstream message is passed on verbatim.  For a valid input,
    when the model call fails with any non-empty message, the raised
    message is the fixed prefix followed by that message, unchanged. *)
Theorem upstream_message_is_kept_verbatim
        (w : W) (input : AnalyzeLoanDocumentInput)
        (error : value) (m : string) (w' : W) :
  100 <= String.length (pdfTextContent input) ->
  message_of error = Some (JStr m) ->
  m <> EmptyString ->
  model (request_of input) w = (Rejected error, w') ->
  outcome (run model (analyzeLoanDocument input) w)
  = Threw
      (JsError (new_Error ("Failed to analyze loan document: " ++ m)))
  /\ includes m ("Failed to analyze loan document: " ++ m) = true.
Proof.
  intros Hlong Hmessage Hm Hanswer.
  exact (rejection_wrapped W model input w error m w'
           Hlong Hmessage Hm Hanswer).
Qed.


(** X8: an input validation error is raised exactly when the text is
    shorter than 100 characters, whatever the model would have done. *)
Theorem input_validation_error_exactly_for_short_texts
        (w : W) (input : AnalyzeLoanDocumentInput) :
  outcome (run model (analyzeLoanDocument input) w)
  = Threw (ValidationError OfInput)
  <-> String.length (pdfTextContent input) < 100.
Proof.
  flow_cases W model input w; cbn [outcome]; split; intros H;
    try reflexivity; try assumption; try lia; try discriminate.
  - destruct (Zod.accepts _ _); discriminate.
  - injection H as H.
    now elim (rethrown_is_no_validation_error _ _ H).
Qed.

(** X9: a falsy message falls back to "Unknown AI Error".  For a valid
    input, when the model call is rejected with a value other than null
    or undefined whose [message] is falsy (absent, the empty string,
    null, 0 or false), the call raises exactly
    "Failed to analyze loan document: Unknown AI Error".  A thrown string
    is such a value: it has no [message], so its text is not passed on. *)
Theorem falsy_message_falls_back_to_unknown_ai_error
        (w : W) (input : AnalyzeLoanDocumentInput)
        (error m : value) (w' : W) :
  100 <= String.length (pdfTextContent input) ->
  message_of error = Some m ->
  truthy m = false ->
  model (request_of input) w = (Rejected error, w') ->
  outcome (run model (analyzeLoanDocument input) w)
  = Threw
      (JsError
         (new_Error "Failed to analyze loan document: Unknown AI Error")).
Proof.
  intros Hlong Hmessage Hfalsy Hanswer.
  rewrite (run_rejected W model input w error w' Hlong Hanswer).
  cbn [outcome]. unfold rethrown, or_default.
  rewrite Hmessage, Hfalsy. reflexivity.
Qed.

(** X13: every error object a call raises was built by the [catch]
    block: its message is a string that starts with
    "Failed to analyze loan document: ". *)
Theorem raised_error_objects_carry_the_prefix
        (w : W) (input : AnalyzeLoanDocumentInput) (raised : value) :
  outcome (run model (analyzeLoanDocument input) w) = Threw (JsError raised) ->
  exists rest,
    message_of raised
    = Some (JStr ("Failed to analyze loan document: " ++ rest)).
Proof.
  flow_cases W model input w; cbn [outcome].
  - discriminate.
  - destruct (Zod.accepts _ _); discriminate.
  - intros [= <-]. eexists. reflexivity.
  - unfold rethrown.
    destruct (message_of error) as [m|]; [|discriminate].
    destruct (to_string (or_default m "Unknown AI Error")) as [reason|];
      [|discriminate].
    intros [= <-]. exists reason. reflexivity.
Qed.

End Outcomes.

(* ===================================================================== *)
(** ** The console and the request *)
(* ===================================================================== *)

Lemma length_append (a b : string) :
  String.length (a ++ b) = String.length a + String.length b.
Proof. induction a as [|c a IH]; cbn; [reflexivity | now rewrite IH]. Qed.

Lemma append_inv_head (s a b : string) : s ++ a = s ++ b -> a = b.
Proof.
  induction s as [|c s IH]; cbn; [trivial|].
  intros [= H]. now apply IH.
Qed.

Lemma append_inv_tail (t a b : string) : a ++ t = b ++ t -> a = b.
Proof.
  revert b. induction a as [|c a IH]; intros [|d b] H; cbn in H.
  - reflexivity.
  - apply (f_equal String.length) in H. cbn in H.
    rewrite length_append in H. lia.
  - apply (f_equal String.length) in H. cbn in H.
    rewrite length_append in H. lia.
  - injection H as -> H. f_equal. now apply IH.
Qed.

Section Surroundings.
Variable W : Type.
Variable model : GenerateRequest -> W -> settled * W.

(** X10: what reaches the console.  Every string literal a call hands
    to the console is one of the five literals of the source, the only
    number it hands over is the length of the document text, and the only
    values it logs as caught errors are the value the model call was
    rejected with, whatever that value carries, and the handler's own
    no-response error. *)
Theorem console_shows_literals_length_and_errors_only
        (w : W) (input : AnalyzeLoanDocumentInput) (line : console_line) :
  In (Printed line) (trace (run model (analyzeLoanDocument input) w)) ->
  Forall
    (fun arg =>
       match arg with
       | ArgStr s => In s console_literals
       | ArgNum n => n = String.length (pdfTextContent input)
       | ArgError e =>
           fst (model (request_of input) w) = Rejected e
           \/ e = new_Error "AI analysis failed to generate a response."
       end)
    (console_args line).
Proof.
  flow_cases W model input w; cbn [trace fst];
    unfold line_calling, line_analyzing, line_no_output, line_successful,
           line_failed;
    intros Hin; cbn [In] in Hin;
    repeat (destruct Hin as [Hin | Hin]; [|try contradiction]);
    try discriminate Hin;
    injection Hin as <-; cbn [console_args];
    repeat (apply Forall_cons || apply Forall_nil);
    unfold console_literals; cbn [In fst]; tauto.
Qed.

(** X11: the only request a call sends to the model is the prompt
    rendered for its own input, together with the output schema. *)
Theorem only_the_rendered_prompt_is_sent
        (w : W) (input : AnalyzeLoanDocumentInput)
        (request : GenerateRequest) :
  In (ModelCall request) (trace (run model (analyzeLoanDocument input) w)) ->
  request = request_of input
  /\ request_output_schema request = AnalyzeLoanDocumentOutputSchema.
Proof.
  assert (Hschema : request_output_schema (request_of input)
                    = AnalyzeLoanDocumentOutputSchema) by reflexivity.
  flow_cases W model input w; cbn [trace];
    unfold line_calling, line_analyzing, line_no_output, line_successful,
           line_failed;
    intros Hin; cbn [In] in Hin;
    repeat (destruct Hin as [Hin | Hin]; [|try contradiction]);
    try discriminate Hin;
    injection Hin as <-; (split; [reflexivity | exact Hschema]).
Qed.

End Surroundings.

(** X12: the rendered prompt determines the document.  Two inputs whose
    prompts are the same text have the same document text, so no two
    different documents are shown to the model as the same request. *)
Theorem different_documents_get_different_prompts
        (a b : AnalyzeLoanDocumentInput) :
  request_text (request_of a) = request_text (request_of b) ->
  pdfTextContent a = pdfTextContent b.
Proof.
  unfold request_of. cbn [request_text].
  rewrite (rendered_prompt (pdfTextContent a)),
          (rendered_prompt (pdfTextContent b)).
  intros H.
  do 3 apply append_inv_head in H.
  now apply append_inv_tail in H.
Qed.

(* ===================================================================== *)
(** ** Further worked examples *)
(* ===================================================================== *)

Example missing_text_is_refused :
  Zod.accepts AnalyzeLoanDocumentInputSchema (JObj []) = false
  /\ Zod.accepts AnalyzeLoanDocumentInputSchema JNull = false
  /\ Zod.accepts AnalyzeLoanDocumentInputSchema
       (JObj [("pdfTextContent", JNum 100)]) = false.
Proof. repeat split. Qed.

Lemma input_schema_accepts_exactly_long_texts_witness :
  exists fields s,
    input_value boundary_input = JObj fields
    /\ get "pdfTextContent" fields = JStr s
    /\ 100 <= String.length s.
Proof.
  apply (proj1 (input_schema_accepts_exactly_long_texts
                  (input_value boundary_input))).
  reflexivity.
Defined.

Lemma null_in_an_optional_field_is_refused_witness :
  Zod.accepts AnalyzeLoanDocumentOutputSchema
    (JObj (("regulatory_registration_status", JNull)
             :: match sample_output with
                | JObj fields => fields
                | _ => []
                end))
  = false.
Proof.
  apply (null_in_an_optional_field_is_refused
           _ "regulatory_registration_status").
  - cbn. tauto.
  - reflexivity.
Defined.

Lemma returned_analysis_has_its_scalar_fields_witness :
  exists fields,
    sample_output = JObj fields
    /\ (forall k, In k required_indicators -> is_boolean (get k fields))
    /\ (forall k, In k required_texts -> is_string (get k fields))
    /\ (forall k, In k optional_indicators ->
                  is_absent_or_boolean (get k fields))
    /\ (forall k, In k optional_texts ->
                  is_absent_or_string (get k fields)).
Proof.
  apply (returned_analysis_has_its_scalar_fields
           nat (answering_model sample_output) 0 sample_input sample_output).
  reflexivity.
Defined.

Lemma a_value_is_returned_exactly_when_the_model_produced_it_witness :
  outcome (run (answering_model sample_output)
               (analyzeLoanDocument sample_input) 0)
  = Returned sample_output.
Proof.
  apply (proj2 (a_value_is_returned_exactly_when_the_model_produced_it
                  nat (answering_model sample_output) 0 sample_input
                  sample_output)).
  split; [cbn; lia|]. split; reflexivity.
Defined.

Lemma no_response_error_exactly_for_falsy_outputs_witness :
  outcome (run (answering_model (JBool false))
               (analyzeLoanDocument sample_input) 0)
  = Threw
      (JsError
         (new_Error
            "Failed to analyze loan document: AI analysis failed to generate a response.")).
Proof.
  apply (proj2 (no_response_error_exactly_for_falsy_outputs
                  nat (answering_model (JBool false)) 0 sample_input
                  {| output := JBool false |} 1
                  ltac:(cbn; lia) eq_refl)).
  reflexivity.
Defined.

Lemma upstream_message_is_kept_verbatim_witness :
  outcome (run (failing_model (new_Error "429 quota exceeded"))
               (analyzeLoanDocument sample_input) 0)
  = Threw
      (JsError
         (new_Error "Failed to analyze loan document: 429 quota exceeded"))
  /\ includes "429 quota exceeded"
       "Failed to analyze loan document: 429 quota exceeded" = true.
Proof.
  apply (upstream_message_is_kept_verbatim
           nat (failing_model (new_Error "429 quota exceeded")) 0 sample_input
           (new_Error "429 quota exceeded") "429 quota exceeded" 1).
  - cbn. lia.
  - reflexivity.
  - discriminate.
  - reflexivity.
Defined.


Lemma falsy_message_falls_back_to_unknown_ai_error_witness :
  outcome (run (failing_model (JStr "boom"))
               (analyzeLoanDocument sample_input) 0)
  = Threw
      (JsError
         (new_Error "Failed to analyze loan document: Unknown AI Error")).
Proof.
  apply (falsy_message_falls_back_to_unknown_ai_error
           nat (failing_model (JStr "boom")) 0 sample_input
           (JStr "boom") JUndefined 1).
  - cbn. lia.
  - reflexivity.
  - reflexivity.
  - reflexivity.
Defined.

Lemma raised_error_objects_carry_the_prefix_witness :
  exists rest,
    message_of
      (new_Error "Failed to analyze loan document: [object Object]")
    = Some (JStr ("Failed to analyze loan document: " ++ rest)).
Proof.
  apply (raised_error_objects_carry_the_prefix
           nat (failing_model (JObj [("message", JObj [("code", JNum 7)])]))
           0 sample_input
           (new_Error "Failed to analyze loan document: [object Object]")).
  reflexivity.
Defined.

Lemma input_validation_error_exactly_for_short_texts_witness :
  outcome (run (answering_model sample_output)
               (analyzeLoanDocument below_boundary_input) 0)
  = Threw (ValidationError OfInput).
Proof.
  apply (proj2 (input_validation_error_exactly_for_short_texts
                  nat (answering_model sample_output) 0
                  below_boundary_input)).
  cbn. lia.
Defined.

Lemma console_shows_literals_length_and_errors_only_witness :
  Forall
    (fun arg =>
       match arg with
       | ArgStr s => In s console_literals
       | ArgNum n => n = String.length (pdfTextContent sample_input)
       | ArgError e =>
           fst (failing_model (new_Error "boom") (request_of sample_input) 0)
           = Rejected e
           \/ e = new_Error "AI analysis failed to generate a response."
       end)
    [ArgStr "[analyzeLoanDocumentFlow] Error during AI analysis:";
     ArgError (new_Error "boom")].
Proof.
  apply (console_shows_literals_length_and_errors_only
           nat (failing_model (new_Error "boom")) 0 sample_input
           (console_error
              [ArgStr "[analyzeLoanDocumentFlow] Error during AI analysis:";
               ArgError (new_Error "boom")])).
  do 3 right. left. reflexivity.
Defined.

Lemma only_the_rendered_prompt_is_sent_witness :
  request_of sample_input = request_of sample_input
  /\ request_output_schema (request_of sample_input)
     = AnalyzeLoanDocumentOutputSchema.
Proof.
  apply (only_the_rendered_prompt_is_sent
           nat (answering_model sample_output) 0 sample_input
           (request_of sample_input)).
  do 2 right. left. reflexivity.
Defined.

Lemma different_documents_get_different_prompts_witness :
  pdfTextContent sample_input
  = pdfTextContent {| pdfTextContent := pdfTextContent sample_input |}.
Proof.
  apply (different_documents_get_different_prompts
           sample_input {| pdfTextContent := pdfTextContent sample_input |}).
  reflexivity.
Defined.
